(** * aiai_eval: model loading and its exception taxonomy

    A shallow embedding of [src/aiai_eval/exceptions.py] and
    [src/aiai_eval/model_loading.py].

    The module is glue code around the Hugging Face hub client, spaCy and
    pip.  Those collaborators are kept abstract (class [Collaborators]):
    each one is a function of its arguments and of an external world that
    returns the new world together with either a raised exception or a
    value.  The Python functions of the module are programs in a small
    state-and-exception monad [Run]; every collaborator call is recorded,
    with its arguments and its answer, in the trace of the run, which is what
    the statements about "what is called with which arguments" talk about. *)

From Stdlib Require Import ZArith String Ascii List Lia.
From stdpp Require Import base option list strings gmap.

Local Open Scope string_scope.
Local Open Scope Z_scope.

(** ** Python string primitives used by the module *)

Module PyStr.

(** [sub in s] on strings. *)
Fixpoint contains (sub s : string) : bool :=
  String.prefix sub s ||
  match s with
  | EmptyString => false
  | String _ rest => contains sub rest
  end.

(** [s.split(sep)] for a one-character separator: never empty. *)
Fixpoint split (sep : ascii) (s : string) : list string :=
  match s with
  | EmptyString => [EmptyString]
  | String c rest =>
      if Ascii.eqb c sep then EmptyString :: split sep rest
      else match split sep rest with
           | [] => [String c EmptyString]
           | piece :: pieces => String c piece :: pieces
           end
  end.

(** [l[-1]]: [None] stands for the IndexError of an empty list. *)
Definition item_last {A} (l : list A) : option A := last l.

(** No occurrence of the character [c] in [s]. *)
Fixpoint free_of (c : ascii) (s : string) : Prop :=
  match s with
  | EmptyString => True
  | String a rest => a ≠ c ∧ free_of c rest
  end.

End PyStr.

(** ** enums.py *)

Module Enums.

(** Modelled from the spec: the [enums] module is not part of the sources
    at hand.  [Framework] has the three members the loader names; since
    Python does not enforce the annotation of [ModelConfig.framework],
    [OTHER] stands for any value that compares unequal to all three. *)
Inductive Framework : Type :=
| PYTORCH
| JAX
| SPACY
| OTHER (value : string).

#[global] Instance Framework_eq_dec : EqDecision Framework.
Proof. solve_decision. Defined.

Definition supported (f : Framework) : bool :=
  match f with
  | OTHER _ => false
  | _ => true
  end.

End Enums.
Export Enums.

(** ** exceptions.py *)

Module Exceptions.

(** Exception objects with the attributes their constructors store.  The
    built-in classes carry the name of the concrete (sub)class and the text
    [str(e)] gives. *)
Inductive Exn : Type :=
| Exn_InvalidEvaluation (message : string)
| Exn_ModelFetchFailed (model_id error_msg message : string)
| Exn_InvalidFramework (framework : Framework) (message : string)
| Exn_OSError (cls text : string)
| Exn_ValueError (cls text : string)
| Exn_CalledProcessError (output text : string)
| Exn_IndexError (text : string)
| Exn_Other (cls text : string).

(** [isinstance(e, OSError)], and so on. *)
Definition is_OSError (e : Exn) : bool :=
  match e with Exn_OSError _ _ => true | _ => false end.
Definition is_ValueError (e : Exn) : bool :=
  match e with Exn_ValueError _ _ => true | _ => false end.

(** [str(e)]. *)
Definition str (e : Exn) : string :=
  match e with
  | Exn_InvalidEvaluation m => m
  | Exn_ModelFetchFailed _ _ m => m
  | Exn_InvalidFramework _ m => m
  | Exn_OSError _ t => t
  | Exn_ValueError _ t => t
  | Exn_CalledProcessError _ t => t
  | Exn_IndexError t => t
  | Exn_Other _ t => t
  end.

(** Truthiness of a string: empty is falsy. *)
Definition truthy (s : string) : bool :=
  match s with EmptyString => false | _ => true end.

(** [InvalidEvaluation.__init__]; the default of [message] is
    ["This model cannot be evaluated on the given dataset."]. *)
Definition InvalidEvaluation (message : string) : Exn :=
  Exn_InvalidEvaluation message.

(** [ModelFetchFailed.__init__]; the default of [message] is [""]. *)
Definition ModelFetchFailed (model_id error_msg message : string) : Exn :=
  Exn_ModelFetchFailed model_id error_msg
    (if truthy message then message
     else "Download of " +:+ model_id +:+ " from the Hugging Face Hub failed, with "
          +:+ "the following error message: " +:+ error_msg +:+ ".").

(** [InvalidFramework.__init__]; [fmt] is how an f-string renders the
    framework value, which the enum's declaration decides. *)
Definition InvalidFramework (fmt : Framework → string) (framework : Framework) : Exn :=
  Exn_InvalidFramework framework
    ("The framework " +:+ fmt framework +:+ " is not supported.").

End Exceptions.
Export Exceptions.

(** ** Python integers that may be [None] *)

Module PyInt.

(** A value of type [Optional[int]]: [None] is Python's [None]. *)
Definition value : Type := option Z.

(** [type(v).__name__] *)
Definition type_name_of (v : value) : string :=
  match v with
  | None => "NoneType"
  | Some _ => "int"
  end.

(** The TypeError of an ordering comparison that involves [None]. *)
Definition not_supported (op : string) (a b : value) : Exn :=
  Exn_Other "TypeError"
    ("'" +:+ op +:+ "' not supported between instances of '"
     +:+ type_name_of a +:+ "' and '" +:+ type_name_of b +:+ "'").

(** [a > b] *)
Definition gt (a b : value) : Exn + bool :=
  match a, b with
  | Some x, Some y => inr (y <? x)
  | _, _ => inl (not_supported ">" a b)
  end.

(** The loop of [min]: [cur] is the least item so far, and each further
    item is tested with [item < cur]. *)
Fixpoint min_from (cur : value) (rest : list value) : Exn + value :=
  match rest with
  | [] => inr cur
  | item :: rest' =>
      match item, cur with
      | Some x, Some y => min_from (Some (if x <? y then x else y)) rest'
      | _, _ => inl (not_supported "<" item cur)
      end
  end.

(** [min(l)]: a one-item list is answered without any comparison. *)
Definition min (l : list value) : Exn + value :=
  match l with
  | [] => inl (Exn_ValueError "ValueError" "min() arg is an empty sequence")
  | first :: rest => min_from first rest
  end.

End PyInt.

(** ** model_loading.py: data *)

Module ModelLoading.

(** A Python object this module only passes around: its identity and the
    name of its class, [type(o).__name__]. *)
Record Obj : Type := { obj_id : N; type_name : string }.

(** What [AutoConfig.from_pretrained] returns; [architectures] is the one
    attribute read here. *)
Record PretrainedConfig : Type :=
  { config_id : N; architectures : option (list string) }.

(** A tokenizer object.  [None] in an attribute field means that
    [hasattr] is false for it; the value of [model_max_length] and the
    values of the dictionary [max_model_input_sizes] (kept in insertion
    order) are integers or Python's [None]. *)
Record Tokenizer : Type :=
  { tokenizer_id : N;
    model_max_length : option PyInt.value;
    max_model_input_sizes : option (list (string * PyInt.value)) }.

(** [tokenizer.model_max_length = v] *)
Definition set_model_max_length (v : PyInt.value) (t : Tokenizer) : Tokenizer :=
  {| tokenizer_id := tokenizer_id t;
     model_max_length := Some v;
     max_model_input_sizes := max_model_input_sizes t |}.

(** [use_auth_token] is a flag or the token itself. *)
Inductive AuthToken : Type :=
| AuthFlag (b : bool)
| AuthString (token : string).

(** Modelled from the spec: [config.py] is not part of the sources at hand;
    [ModelConfig] has the attributes the loaders read or write. *)
Record ModelConfig : Type :=
  { model_id : string; revision : string; framework : Framework }.

(** Modelled from the spec: [config.py] is not part of the sources at hand;
    [TaskConfig] has the one attribute the loaders read. *)
Record TaskConfig : Type := { supertask : string }.

(** Modelled from the spec: [config.py] is not part of the sources at hand;
    [EvaluationConfig] has the attributes the loaders read. *)
Record EvaluationConfig : Type :=
  { use_auth_token : AuthToken; cache_dir : string; device : string }.

Definition with_framework (f : Framework) (mc : ModelConfig) : ModelConfig :=
  {| model_id := model_id mc; revision := revision mc; framework := f |}.

(** Values stored in the dictionary the loaders return. *)
Inductive Value : Type :=
| VModel (m : Obj)
| VTokenizer (t : Tokenizer).

(** *** Collaborator calls, as they appear in a trace

    One constructor per call site of an external function, with the
    arguments passed and the answer received. *)
Inductive Event : Type :=
| AutoConfig_from_pretrained_called
    (model_id revision : string) (use_auth_token : AuthToken)
    (answer : Exn + PretrainedConfig)
| check_supertask_called
    (architectures : option (list string)) (supertask : string)
    (answer : Exn + unit)
| get_class_by_name_called
    (class_name module_name : string) (answer : Exn + option Obj)
| model_cls_from_pretrained_called
    (model_cls : Obj) (model_id revision : string)
    (use_auth_token : AuthToken) (config : PretrainedConfig)
    (cache_dir : string) (from_flax : bool) (answer : Exn + Obj)
| adjust_model_to_task_called
    (model : Obj) (model_config : ModelConfig) (task_config : TaskConfig)
    (answer : Exn + unit)
| AutoTokenizer_from_pretrained_called
    (m_id revision : string) (use_auth_token : AuthToken)
    (use_fast add_prefix_space : bool) (answer : Exn + Tokenizer)
| model_eval_called (model : Obj) (answer : Exn + unit)
| model_to_called (model : Obj) (device : string) (answer : Exn + unit)
| is_module_installed_called (module : string) (answer : Exn + bool)
| subprocess_run_called (args : list string) (answer : Exn + unit)
| spacy_load_called (name : string) (answer : Exn + Obj).

(** The calls inside the [try] block of [load_pytorch_model]. *)
Definition in_fetch_phase (ev : Event) : bool :=
  match ev with
  | AutoConfig_from_pretrained_called _ _ _ _
  | check_supertask_called _ _ _
  | get_class_by_name_called _ _ _
  | model_cls_from_pretrained_called _ _ _ _ _ _ _ _ => true
  | _ => false
  end.

(** The calls only [load_spacy_model] makes. *)
Definition is_spacy_side (ev : Event) : bool :=
  match ev with
  | is_module_installed_called _ _
  | subprocess_run_called _ _
  | spacy_load_called _ _ => true
  | _ => false
  end.

(** The exception a call answered with, if it raised. *)
Definition raised (ev : Event) : option Exn :=
  let err {A} (r : Exn + A) : option Exn :=
    match r with inl e => Some e | inr _ => None end in
  match ev with
  | AutoConfig_from_pretrained_called _ _ _ r => err r
  | check_supertask_called _ _ r => err r
  | get_class_by_name_called _ _ r => err r
  | model_cls_from_pretrained_called _ _ _ _ _ _ _ r => err r
  | adjust_model_to_task_called _ _ _ r => err r
  | AutoTokenizer_from_pretrained_called _ _ _ _ _ r => err r
  | model_eval_called _ r => err r
  | model_to_called _ _ r => err r
  | is_module_installed_called _ r => err r
  | subprocess_run_called _ r => err r
  | spacy_load_called _ r => err r
  end.

(** The model object a loading call answered with. *)
Definition loaded_model (ev : Event) : option Obj :=
  match ev with
  | model_cls_from_pretrained_called _ _ _ _ _ _ _ (inr m) => Some m
  | spacy_load_called _ (inr m) => Some m
  | _ => None
  end.

(** *** The collaborators

    [W] is the state of everything outside this module (the hub, the
    file system, the installed packages, the loaded models).
    [adjust_model_to_task] receives the configuration object itself and so
    may also write to it. *)
Class Collaborators (W : Type) : Type :=
  { AutoConfig_from_pretrained :
      string → string → AuthToken → W → W * (Exn + PretrainedConfig);
    check_supertask :
      option (list string) → string → W → W * (Exn + unit);
    get_class_by_name :
      string → string → W → W * (Exn + option Obj);
    model_cls_from_pretrained :
      Obj → string → string → AuthToken → PretrainedConfig → string → bool →
      W → W * (Exn + Obj);
    adjust_model_to_task :
      Obj → ModelConfig → TaskConfig → W → (ModelConfig * W) * (Exn + unit);
    AutoTokenizer_from_pretrained :
      string → string → AuthToken → bool → bool → W → W * (Exn + Tokenizer);
    model_eval : Obj → W → W * (Exn + unit);
    model_to : Obj → string → W → W * (Exn + unit);
    is_module_installed : string → W → W * (Exn + bool);
    subprocess_run : list string → W → W * (Exn + unit);
    spacy_load : string → W → W * (Exn + Obj);
    (** how an f-string renders a [Framework] value *)
    format_framework : Framework → string }.

(** *** The monad of runs *)

(** The store: the [ModelConfig] object the caller handed in, and the
    world of the collaborators. *)
Record Store (W : Type) : Type :=
  { the_model_config : ModelConfig; world : W }.
Arguments the_model_config {W} _.
Arguments world {W} _.
Arguments Build_Store {W} _ _.

Record Outcome (W A : Type) : Type :=
  { final : Store W; trace : list Event; result : Exn + A }.
Arguments final {W A} _.
Arguments trace {W A} _.
Arguments result {W A} _.
Arguments Build_Outcome {W A} _ _ _.

Definition Run (W A : Type) : Type := Store W → Outcome W A.

Section Monad.
Context {W : Type}.

Definition ret {A} (a : A) : Run W A :=
  fun s => {| final := s; trace := []; result := inr a |}.

Definition raise {A} (e : Exn) : Run W A :=
  fun s => {| final := s; trace := []; result := inl e |}.

Definition bind {A B} (m : Run W A) (k : A → Run W B) : Run W B :=
  fun s =>
    match m s with
    | Build_Outcome s1 tr1 (inl e) =>
        {| final := s1; trace := tr1; result := inl e |}
    | Build_Outcome s1 tr1 (inr a) =>
        match k a s1 with
        | Build_Outcome s2 tr2 r =>
            {| final := s2; trace := tr1 ++ tr2; result := r |}
        end
    end.

(** [try: m  except <classes> as e: handler]; the handler answers [None]
    for an exception the clause does not catch. *)
Definition try_except {A} (m : Run W A) (handler : Exn → option (Run W A))
    : Run W A :=
  fun s =>
    match m s with
    | Build_Outcome s1 tr1 (inl e) =>
        match handler e with
        | Some h =>
            match h s1 with
            | Build_Outcome s2 tr2 r =>
                {| final := s2; trace := tr1 ++ tr2; result := r |}
            end
        | None => {| final := s1; trace := tr1; result := inl e |}
        end
    | Build_Outcome s1 tr1 (inr a) =>
        {| final := s1; trace := tr1; result := inr a |}
    end.

(** A built-in that answers with a value or raises. *)
Definition lift {A} (r : Exn + A) : Run W A :=
  fun s => {| final := s; trace := []; result := r |}.

(** Reading and writing the caller's configuration object. *)
Definition get_model_config : Run W ModelConfig :=
  fun s => {| final := s; trace := []; result := inr (the_model_config s) |}.

Definition set_model_config_framework (f : Framework) : Run W unit :=
  fun s =>
    {| final := {| the_model_config := with_framework f (the_model_config s);
                   world := world s |};
       trace := []; result := inr tt |}.

(** A call to a collaborator that acts on the world only. *)
Definition extern {A} (f : W → W * (Exn + A)) (ev : Exn + A → Event)
    : Run W A :=
  fun s =>
    match f (world s) with
    | (w, r) =>
        {| final := {| the_model_config := the_model_config s; world := w |};
           trace := [ev r]; result := r |}
    end.

(** A call that is handed the configuration object. *)
Definition extern_cfg {A}
    (f : ModelConfig → W → (ModelConfig * W) * (Exn + A))
    (ev : ModelConfig → Exn + A → Event) : Run W A :=
  fun s =>
    match f (the_model_config s) (world s) with
    | ((mc, w), r) =>
        {| final := {| the_model_config := mc; world := w |};
           trace := [ev (the_model_config s) r]; result := r |}
    end.

End Monad.

Notation "'let*' x ':=' m 'in' k" := (bind m (fun x => k))
  (at level 10, x pattern, m at level 100, k at level 200).
Notation "m ';;' k" := (bind m (fun _ => k))
  (at level 100, k at level 200, right associativity).

(** ** model_loading.py: the loaders *)

Section Loaders.
Context {W : Type} `{!Collaborators W}.

Definition load_pytorch_model (from_flax : bool) (task_config : TaskConfig)
    (evaluation_config : EvaluationConfig) : Run W (gmap string Value) :=
  let* model :=
    try_except
      (let* model_config := get_model_config in
       let* config :=
         extern
           (AutoConfig_from_pretrained (model_id model_config)
              (revision model_config) (use_auth_token evaluation_config))
           (AutoConfig_from_pretrained_called (model_id model_config)
              (revision model_config) (use_auth_token evaluation_config)) in
       let supertask := supertask task_config in
       extern (check_supertask (architectures config) supertask)
         (check_supertask_called (architectures config) supertask) ;;
       let* model_cls :=
         extern
           (get_class_by_name ("auto-model-for-" +:+ supertask) "transformers")
           (get_class_by_name_called ("auto-model-for-" +:+ supertask)
              "transformers") in
       match model_cls with
       | None =>
           raise
             (InvalidEvaluation
                ("The supertask '" +:+ supertask
                 +:+ "' does not correspond to a Hugging Face "
                 +:+ " AutoModel type (such as `AutoModelForSequenceClassification`)."))
       | Some model_cls =>
           let* model_config := get_model_config in
           extern
             (model_cls_from_pretrained model_cls (model_id model_config)
                (revision model_config) (use_auth_token evaluation_config)
                config (cache_dir evaluation_config) from_flax)
             (model_cls_from_pretrained_called model_cls
                (model_id model_config) (revision model_config)
                (use_auth_token evaluation_config) config
                (cache_dir evaluation_config) from_flax)
       end)
      (fun e =>
         if is_OSError e || is_ValueError e then
           Some
             (let* model_config := get_model_config in
              raise
                (InvalidEvaluation
                   ("The model " +:+ model_id model_config
                    +:+ " either does not have a frameworks "
                    +:+ "registered, or it is a private model. If it is a private model then "
                    +:+ "enable the `--use-auth-token` flag and make  sure that you are "
                    +:+ "logged in to the Hub via the `huggingface-cli login` command.")))
         else None) in
  extern_cfg (fun mc => adjust_model_to_task model mc task_config)
    (fun mc => adjust_model_to_task_called model mc task_config) ;;
  let* model_config := get_model_config in
  let m_id := model_id model_config in
  let prefix := PyStr.contains "Roberta" (type_name model) in
  let* tokenizer :=
    extern
      (AutoTokenizer_from_pretrained m_id (revision model_config)
         (use_auth_token evaluation_config) true prefix)
      (AutoTokenizer_from_pretrained_called m_id (revision model_config)
         (use_auth_token evaluation_config) true prefix) in
  let* tokenizer :=
    let* too_long :=
      match model_max_length tokenizer with
      | None => ret true
      | Some current => lift (PyInt.gt current (Some 1000))
      end in
    if (too_long : bool) then
      match max_model_input_sizes tokenizer with
      | Some sizes =>
          let all_max_lengths := sizes.*2 in
          if (0 <? length all_max_lengths)%nat then
            let* min_max_length := lift (PyInt.min all_max_lengths) in
            ret (set_model_max_length min_max_length tokenizer)
          else ret (set_model_max_length (Some 512) tokenizer)
      | None => ret (set_model_max_length (Some 512) tokenizer)
      end
    else ret tokenizer in
  extern (model_eval model) (model_eval_called model) ;;
  extern (model_to model (device evaluation_config))
    (model_to_called model (device evaluation_config)) ;;
  ret ({[ "model" := VModel model; "tokenizer" := VTokenizer tokenizer ]}
         : gmap string Value).

Definition load_spacy_model (model_id : string) : Run W (gmap string Value) :=
  let* local_model_id :=
    match PyStr.item_last (PyStr.split "/" model_id) with
    | Some piece => ret piece
    | None => raise (Exn_IndexError "list index out of range")
    end in
  try_except
    (let* installed :=
       extern (is_module_installed local_model_id)
         (is_module_installed_called local_model_id) in
     if negb installed then
       let url :=
         "https://huggingface.co/" +:+ model_id +:+ "/resolve/main/"
         +:+ local_model_id +:+ "-" +:+ "any-py3-none-any.whl" in
       extern (subprocess_run ["pip3"; "install"; url])
         (subprocess_run_called ["pip3"; "install"; url])
     else ret tt)
    (fun e =>
       match e with
       | Exn_CalledProcessError output _ =>
           Some (raise (ModelFetchFailed local_model_id output ""))
       | _ => None
       end) ;;
  let* model :=
    try_except
      (extern (spacy_load local_model_id) (spacy_load_called local_model_id))
      (fun e =>
         if is_OSError e then
           Some
             (raise
                (ModelFetchFailed model_id (str e)
                   ("Download of " +:+ model_id
                    +:+ " failed, with the following error message: "
                    +:+ str e +:+ ".")))
         else None) in
  ret ({[ "model" := VModel model ]} : gmap string Value).

Definition load_model (task_config : TaskConfig)
    (evaluation_config : EvaluationConfig) : Run W (gmap string Value) :=
  let* model_config := get_model_config in
  let from_flax := bool_decide (framework model_config = JAX) in
  (if bool_decide (framework model_config = JAX)
   then set_model_config_framework PYTORCH
   else ret tt) ;;
  let* model_config := get_model_config in
  if bool_decide (framework model_config = PYTORCH) then
    load_pytorch_model from_flax task_config evaluation_config
  else if bool_decide (framework model_config = SPACY) then
    load_spacy_model (model_id model_config)
  else raise (InvalidFramework format_framework (framework model_config)).

End Loaders.

End ModelLoading.

Import ModelLoading.

(** ** A small concrete world

    A hub with one public RoBERTa classifier and one private repository, and
    a Python environment given by the list of installed wheels.  As
    [subprocess.run] without [check=True], its pip run comes back whether
    or not the wheel could be installed.  It is used
    to run the loaders on concrete inputs. *)

Module Sample.

Definition World : Type := list string.

Definition roberta : Obj :=
  {| obj_id := 3; type_name := "RobertaForSequenceClassification" |}.

Definition roberta_tokenizer : Tokenizer :=
  {| tokenizer_id := 4;
     model_max_length := Some (Some (10 ^ 30));
     max_model_input_sizes :=
       Some [("roberta-large", Some 1024); ("roberta-base", Some 514)] |}.

Definition danish_pipeline : Obj := {| obj_id := 5; type_name := "Danish" |}.

Definition has_module (name : string) (w : World) : bool :=
  existsb (PyStr.contains name) w.

#[global] Instance hub : Collaborators World :=
  {| AutoConfig_from_pretrained model_id _ _ w :=
       if decide (model_id = "acme/private") then
         (w, inl (Exn_OSError "OSError" "401 Client Error: Unauthorized"))
       else
         (w, inr {| config_id := 1;
                    architectures := Some ["RobertaForSequenceClassification"] |});
     check_supertask _ _ w := (w, inr tt);
     get_class_by_name class_name _ w :=
       if decide (class_name = "auto-model-for-sequence-classification") then
         (w, inr (Some {| obj_id := 2; type_name := "type" |}))
       else (w, inr None);
     model_cls_from_pretrained _ _ _ _ _ _ _ w := (w, inr roberta);
     adjust_model_to_task _ mc _ w := ((mc, w), inr tt);
     AutoTokenizer_from_pretrained _ _ _ _ _ w := (w, inr roberta_tokenizer);
     model_eval _ w := (w, inr tt);
     model_to _ _ w := (w, inr tt);
     is_module_installed name w := (w, inr (has_module name w));
     subprocess_run args w :=
       match args with
       | [_; _; url] =>
           if PyStr.contains "missing" url then (w, inr tt)
           else (url :: w, inr tt)
       | _ => (w, inr tt)
       end;
     spacy_load name w :=
       if has_module name w then (w, inr danish_pipeline)
       else (w, inl (Exn_OSError "OSError" "[E050] Can't find model"));
     format_framework f :=
       match f with
       | PYTORCH => "pytorch"
       | JAX => "jax"
       | SPACY => "spacy"
       | OTHER value => value
       end |}.

Definition task : TaskConfig := {| supertask := "sequence-classification" |}.

Definition evaluation : EvaluationConfig :=
  {| use_auth_token := AuthFlag false; cache_dir := ".cache"; device := "cpu" |}.

Definition store (model_id : string) (f : Framework) : Store World :=
  {| the_model_config :=
       {| model_id := model_id; revision := "main"; framework := f |};
     world := [] |}.

Definition roberta_store : Store World :=
  store "acme/roberta-demo" JAX.

Definition private_store : Store World :=
  store "acme/private" PYTORCH.

(** The dictionary the PyTorch adapter returns on the sample hub. *)
Definition roberta_dict : gmap string Value :=
  {[ "model" := VModel roberta;
     "tokenizer" :=
       VTokenizer
         {| tokenizer_id := 4;
            model_max_length := Some (Some 514);
            max_model_input_sizes :=
              Some [("roberta-large", Some 1024); ("roberta-base", Some 514)] |} ]}.

End Sample.

(** ** Vocabulary of the statements *)

Module LoaderSpec.

(** The message of the [except (OSError, ValueError)] clause. *)
Definition unavailable_message (model_id : string) : string :=
  "The model " +:+ model_id +:+
  " either does not have a frameworks registered, or it is a private model. If it is a private model then enable the `--use-auth-token` flag and make  sure that you are logged in to the Hub via the `huggingface-cli login` command.".





(** [piece] is what follows the last ["/"] of [model_id], or all of
    [model_id] when it has none. *)
Definition after_last_slash (model_id piece : string) : Prop :=
  PyStr.free_of "/" piece ∧
  (model_id = piece ∨ ∃ pre, model_id = pre +:+ "/" +:+ piece).

(** The default message of [ModelFetchFailed], as one template. *)
Definition fetch_failed_template (model_id error_msg : string) : string :=
  "Download of " +:+ model_id +:+
  " from the Hugging Face Hub failed, with the following error message: "
  +:+ error_msg +:+ ".".

(** The message [load_spacy_model] gives when [spacy.load] fails. *)
Definition spacy_failed_message (model_id text : string) : string :=
  "Download of " +:+ model_id +:+
  " failed, with the following error message: " +:+ text +:+ ".".

(** The collaborator that is handed the configuration object does not
    write its [framework] attribute. *)
Definition adjust_keeps_framework {W} `{!Collaborators W} : Prop :=
  ∀ m mc t w,
    framework (adjust_model_to_task m mc t w).1.1 = framework mc.

End LoaderSpec.
Import LoaderSpec.

(** ** Further vocabulary: messages, URLs and assumptions on collaborators *)

Module LoaderTerms.

(** [isinstance(e, CalledProcessError)]. *)
Definition is_CalledProcessError (e : Exn) : bool :=
  match e with Exn_CalledProcessError _ _ => true | _ => false end.

(** Which exceptions the [except] clause around a call catches: the clause
    of the [try] block for the hub calls of [load_pytorch_model], none for
    its later calls, and the two clauses of [load_spacy_model]. *)
Definition caught (ev : Event) (e : Exn) : bool :=
  match ev with
  | AutoConfig_from_pretrained_called _ _ _ _
  | check_supertask_called _ _ _
  | get_class_by_name_called _ _ _
  | model_cls_from_pretrained_called _ _ _ _ _ _ _ _ =>
      is_OSError e || is_ValueError e
  | is_module_installed_called _ _
  | subprocess_run_called _ _ => is_CalledProcessError e
  | spacy_load_called _ _ => is_OSError e
  | _ => false
  end.

(** The message raised when the supertask has no AutoModel class. *)
Definition unknown_supertask_message (supertask : string) : string :=
  "The supertask '" +:+ supertask +:+
  "' does not correspond to a Hugging Face  AutoModel type (such as `AutoModelForSequenceClassification`).".

(** The wheel [load_spacy_model] asks pip to install. *)
Definition wheel_url (model_id local_model_id : string) : string :=
  "https://huggingface.co/" +:+ model_id +:+ "/resolve/main/" +:+
  local_model_id +:+ "-any-py3-none-any.whl".

(** The model object a call works on, for the calls made on a model. *)
Definition model_used (ev : Event) : option Obj :=
  match ev with
  | adjust_model_to_task_called m _ _ _ => Some m
  | model_eval_called m _ => Some m
  | model_to_called m _ _ => Some m
  | _ => None
  end.

(** The [from_flax] flag of a model instantiation. *)
Definition from_flax_of (ev : Event) : option bool :=
  match ev with
  | model_cls_from_pretrained_called _ _ _ _ _ _ ff _ => Some ff
  | _ => None
  end.

(** The tokenizer holds a [None] where the loader compares integers: as
    its [model_max_length], or among two or more values of
    [max_model_input_sizes]. *)
Definition compares_none (t : Tokenizer) : Prop :=
  model_max_length t = Some None ∨
  ∃ sizes,
    max_model_input_sizes t = Some sizes ∧
    None ∈ sizes.*2 ∧ (2 ≤ length sizes)%nat.

(** [subprocess.run] as [load_spacy_model] calls it, without [check=True]:
    a process that exits with a non-zero status is reported in the value
    returned, and CalledProcessError is not raised. *)
Definition subprocess_run_unchecked {W} `{!Collaborators W} : Prop :=
  ∀ args w output text,
    (subprocess_run args w).2 ≠ inl (Exn_CalledProcessError output text).

End LoaderTerms.
Import LoaderTerms.

(** ** A second concrete world

    An environment in which collaborators fail in ways the hub of [Sample]
    does not: a supertask check that rejects, a repository without
    tokenizer files, a package query that fails, a pip run that times out, a
    pipeline that is installed and one that is corrupt. *)

Module Scenario.

Record Env : Type := { installed : list string }.

Definition bert : Obj :=
  {| obj_id := 7; type_name := "BertForTokenClassification" |}.

Definition plain_tokenizer : Tokenizer :=
  {| tokenizer_id := 8; model_max_length := None;
     max_model_input_sizes := None |}.

(** A tokenizer whose table of input sizes has an entry without a limit. *)
Definition open_ended_tokenizer : Tokenizer :=
  {| tokenizer_id := 10; model_max_length := Some (Some (10 ^ 30));
     max_model_input_sizes :=
       Some [("transfo-xl-wt103", None); ("transfo-xl-small", Some 512)] |}.

Definition pipeline : Obj := {| obj_id := 9; type_name := "English" |}.

#[global] Instance hub : Collaborators Env :=
  {| AutoConfig_from_pretrained _ _ _ w :=
       (w, inr {| config_id := 6;
                  architectures := Some ["BertForTokenClassification"] |});
     check_supertask _ supertask w :=
       if decide (supertask = "token-classification") then (w, inr tt)
       else (w, inl (Exn_InvalidEvaluation "architecture and supertask differ"));
     get_class_by_name _ _ w :=
       (w, inr (Some {| obj_id := 2; type_name := "type" |}));
     model_cls_from_pretrained _ _ _ _ _ _ _ w := (w, inr bert);
     adjust_model_to_task _ mc _ w := ((mc, w), inr tt);
     AutoTokenizer_from_pretrained m_id _ _ _ _ w :=
       if decide (m_id = "acme/no-tokenizer") then
         (w, inl (Exn_OSError "OSError" "no tokenizer files"))
       else if decide (m_id = "acme/transfo-xl") then
         (w, inr open_ended_tokenizer)
       else (w, inr plain_tokenizer);
     model_eval _ w := (w, inr tt);
     model_to _ _ w := (w, inr tt);
     is_module_installed name w :=
       if decide (name = "en_locked") then
         (w, inl (Exn_CalledProcessError "permission denied"
                    "Command returned non-zero exit status 2."))
       else (w, inr (bool_decide (name ∈ installed w)));
     subprocess_run _ w :=
       (w, inl (Exn_Other "TimeoutExpired" "timed out after 60 seconds"));
     spacy_load name w :=
       if decide (name = "en_corrupt") then
         (w, inl (Exn_ValueError "ValueError" "[E149] Error deserializing model"))
       else if bool_decide (name ∈ installed w) then (w, inr pipeline)
       else (w, inl (Exn_OSError "OSError" "[E050] Can't find model"));
     format_framework f :=
       match f with
       | PYTORCH => "Framework.PYTORCH"
       | JAX => "Framework.JAX"
       | SPACY => "Framework.SPACY"
       | OTHER value => value
       end |}.

Definition store (model_id : string) (f : Framework) : Store Env :=
  {| the_model_config :=
       {| model_id := model_id; revision := "main"; framework := f |};
     world := {| installed := ["en_ready"; "en_corrupt"] |} |}.

Definition token_task : TaskConfig := {| supertask := "token-classification" |}.

Definition other_task : TaskConfig := {| supertask := "jokes" |}.

End Scenario.

(** * Facts about the Python primitives *)

Section PyStrFacts.

Lemma append_String (a : ascii) (s t : string) :
  String a s +:+ t = String a (s +:+ t).
Proof. reflexivity. Qed.

Lemma prefix_iff_append (p s : string) :
  String.prefix p s = true ↔ ∃ post, s = p +:+ post.
Proof.
  revert s. induction p as [|a p IH]; intros [|b s]; simpl.
  - split; [intros _; by exists EmptyString | done].
  - split; [intros _; by exists (String b s) | done].
  - split; [done | intros [post Hp]; discriminate].
  - destruct (ascii_dec a b) as [->|Hne].
    + rewrite IH. split; intros [post Hp]; exists post;
        rewrite append_String in *; congruence.
    + split; [done | intros [post Hp]].
      rewrite append_String in Hp. congruence.
Qed.

(** [contains] decides the occurrence of [sub] as a substring. *)
Lemma contains_iff (sub s : string) :
  PyStr.contains sub s = true ↔ ∃ pre post, s = pre +:+ sub +:+ post.
Proof.
  induction s as [|c s IH].
  - change (PyStr.contains sub EmptyString)
      with (String.prefix sub EmptyString || false).
    rewrite orb_false_r, prefix_iff_append. split.
    + intros [post Hp]. by exists EmptyString, post.
    + intros [pre [post Hp]]. destruct pre; [by exists post | discriminate].
  - change (PyStr.contains sub (String c s))
      with (String.prefix sub (String c s) || PyStr.contains sub s).
    rewrite orb_true_iff, prefix_iff_append, IH. split.
    + intros [[post Hp] | [pre [post Hp]]].
      * by exists EmptyString, post.
      * exists (String c pre), post. by rewrite append_String, Hp.
    + intros [pre [post Hp]]. destruct pre as [|a pre].
      * left. by exists post.
      * right. exists pre, post. rewrite append_String in Hp. congruence.
Qed.

(** The shape of [split]: a first piece without separator, and, when there
    are more pieces, a last piece without separator that follows the last
    separator of the string. *)
Lemma split_shape (sep : ascii) (s : string) :
  ∃ hd tl, PyStr.split sep s = hd :: tl ∧ PyStr.free_of sep hd ∧
    match last tl with
    | None => tl = [] ∧ s = hd
    | Some piece =>
        PyStr.free_of sep piece ∧ ∃ pre, s = pre +:+ String sep piece
    end.
Proof.
  induction s as [|c s (hd & tl & Hsplit & Hhd & Hlast)]; simpl.
  - by exists EmptyString, [].
  - rewrite Hsplit. destruct (Ascii.eqb_spec c sep) as [->|Hne].
    + exists EmptyString, (hd :: tl). split_and!; [done..|].
      rewrite last_cons. destruct (last tl) as [piece|].
      * destruct Hlast as [Hfree [pre ->]]. split; [done|].
        by exists (String sep pre).
      * destruct Hlast as [-> ->]. split; [done|]. by exists EmptyString.
    + exists (String c hd), tl. split_and!; [done..|].
      destruct (last tl) as [piece|].
      * destruct Hlast as [Hfree [pre ->]]. split; [done|].
        by exists (String c pre).
      * by destruct Hlast as [-> ->].
Qed.

(** [model_id.split("/")[-1]] is defined, and is what follows the last
    separator (the whole string when there is none). *)
Lemma split_item_last (sep : ascii) (s : string) :
  ∃ piece, PyStr.item_last (PyStr.split sep s) = Some piece ∧
    PyStr.free_of sep piece ∧
    (s = piece ∨ ∃ pre, s = pre +:+ String sep piece).
Proof.
  destruct (split_shape sep s) as (hd & tl & -> & Hhd & Hlast).
  unfold PyStr.item_last. rewrite last_cons.
  destruct (last tl) as [piece|].
  - exists piece. destruct Hlast as [Hfree Hpre]. eauto.
  - exists hd. destruct Hlast as [_ ->]. eauto.
Qed.



(** [min] fails on a non-empty list only when it has to compare a [None]. *)
Lemma min_from_error (rest : list PyInt.value) (cur : PyInt.value) (e : Exn) :
  PyInt.min_from cur rest = inl e →
  None ∈ cur :: rest ∧ rest ≠ [] ∧ ∃ a b, e = PyInt.not_supported "<" a b.
Proof.
  revert cur. induction rest as [|item rest IH]; intros cur; simpl;
    [discriminate |].
  destruct item as [x|], cur as [y|].
  - intros Hmin. apply IH in Hmin as (Hin & _ & Herr).
    split; [| by split].
    apply elem_of_cons in Hin as [?|Hin]; [done |].
    by do 2 apply list_elem_of_further.
  - intros [= <-]. split; [apply list_elem_of_here |]. split; [done | eauto].
  - intros [= <-].
    split; [apply list_elem_of_further, list_elem_of_here |].
    split; [done | eauto].
  - intros [= <-]. split; [apply list_elem_of_here |]. split; [done | eauto].
Qed.

Lemma min_error (l : list PyInt.value) (e : Exn) :
  (0 <? length l)%nat = true →
  PyInt.min l = inl e →
  None ∈ l ∧ (2 ≤ length l)%nat ∧ ∃ a b, e = PyInt.not_supported "<" a b.
Proof.
  destruct l as [|first rest]; [discriminate |]. intros _ Hmin.
  apply min_from_error in Hmin as (Hin & Hrest & Herr).
  split; [done |]. split; [| done].
  destruct rest; [done | simpl; lia].
Qed.

End PyStrFacts.

(** * Stepping through a run

    [run_open] exposes the control flow of a loader; [run_step] then follows
    it one collaborator call or one branch at a time. *)

Ltac run_simpl :=
  cbn [result trace final the_model_config world app negb PyInt.gt].

Ltac run_open :=
  unfold bind, try_except, extern, extern_cfg, get_model_config,
    set_model_config_framework, ret, raise, lift;
  run_simpl.

Ltac run_call :=
  match goal with
  | |- context [AutoConfig_from_pretrained ?a ?b ?c ?w] =>
      destruct (AutoConfig_from_pretrained a b c w) as [? [?|?]]
  | |- context [check_supertask ?a ?b ?w] =>
      destruct (check_supertask a b w) as [? [?|[]]]
  | |- context [get_class_by_name ?a ?b ?w] =>
      destruct (get_class_by_name a b w) as [? [?|[?|]]]
  | |- context [model_cls_from_pretrained ?a ?b ?c ?d ?e ?f ?g ?w] =>
      destruct (model_cls_from_pretrained a b c d e f g w) as [? [?|?]]
  | |- context [adjust_model_to_task ?a ?b ?c ?w] =>
      destruct (adjust_model_to_task a b c w) as [[? ?] [?|[]]] eqn:?
  | |- context [AutoTokenizer_from_pretrained ?a ?b ?c ?d ?e ?w] =>
      destruct (AutoTokenizer_from_pretrained a b c d e w) as [? [?|?]]
  | |- context [model_eval ?a ?w] =>
      destruct (model_eval a w) as [? [?|[]]]
  | |- context [model_to ?a ?b ?w] =>
      destruct (model_to a b w) as [? [?|[]]]
  | |- context [is_module_installed ?a ?w] =>
      destruct (is_module_installed a w) as [? [?|[|]]]
  | |- context [subprocess_run ?a ?w] =>
      destruct (subprocess_run a w) as [? [?|[]]] eqn:?
  | |- context [spacy_load ?a ?w] =>
      destruct (spacy_load a w) as [? [?|?]]
  end.

Ltac run_branch :=
  match goal with
  | |- context [is_OSError ?e || is_ValueError ?e] =>
      destruct (is_OSError e || is_ValueError e) eqn:?
  | |- context [if is_OSError ?e then _ else _] =>
      destruct (is_OSError e) eqn:?
  | |- context [match ?e with Exn_CalledProcessError _ _ => _ | _ => _ end] =>
      is_var e; destruct e
  | |- context [match model_max_length ?t with _ => _ end] =>
      destruct (model_max_length t) as [[?|]|] eqn:?
  | |- context [if (1000 <? ?n)%Z then _ else _] =>
      destruct (Z.ltb_spec 1000 n)
  | |- context [match max_model_input_sizes ?t with _ => _ end] =>
      destruct (max_model_input_sizes t) as [?|] eqn:?
  | |- context [if (0 <? ?n)%nat then _ else _] =>
      destruct (0 <? n)%nat eqn:?
  | |- context [match PyInt.min ?l with _ => _ end] =>
      destruct (PyInt.min l) as [?|?] eqn:?
  end.

Ltac run_step := first [run_call | run_branch]; run_simpl.

(** Membership in a trace that is an explicit list. *)
Ltac trace_in :=
  repeat first [apply list_elem_of_here | apply list_elem_of_further].

(** Case analysis on [ev ∈ [e1; ...; en]], dropping the events of another
    shape. *)
Ltac trace_cases H :=
  repeat (apply elem_of_cons in H as [H|H];
          [first [discriminate H | subst | idtac] |]);
  try (by apply elem_of_nil in H).

(** * Properties of the loaders *)

Section LoaderFacts.
Context {W : Type} `{!Collaborators W}.

(** Laws of the monad used to step through the dispatcher. *)
Lemma bind_get {B} (k : ModelConfig → Run W B) (s : Store W) :
  bind get_model_config k s = k (the_model_config s) s.
Proof. unfold bind, get_model_config. by destruct (k _ s). Qed.

Lemma bind_ret {A B} (a : A) (k : A → Run W B) (s : Store W) :
  bind (ret a) k s = k a s.
Proof. unfold bind, ret. by destruct (k a s). Qed.

Lemma bind_set_framework {B} (f : Framework) (k : unit → Run W B) (s : Store W) :
  bind (set_model_config_framework f) k s =
  k tt {| the_model_config := with_framework f (the_model_config s);
          world := world s |}.
Proof. unfold bind, set_model_config_framework. by destruct (k tt _). Qed.

(** The dispatcher, one framework at a time. *)
Lemma load_model_PYTORCH tc ec s :
  framework (the_model_config s) = PYTORCH →
  load_model tc ec s = load_pytorch_model false tc ec s.
Proof.
  intros Hf. unfold load_model.
  rewrite bind_get; cbv beta. rewrite Hf.
  rewrite bool_decide_eq_false_2 by done.
  rewrite bind_ret, bind_get; cbv beta. rewrite Hf. reflexivity.
Qed.

Lemma load_model_JAX tc ec s :
  framework (the_model_config s) = JAX →
  load_model tc ec s =
  load_pytorch_model true tc ec
    {| the_model_config := with_framework PYTORCH (the_model_config s);
       world := world s |}.
Proof.
  intros Hf. unfold load_model.
  rewrite bind_get; cbv beta. rewrite Hf.
  rewrite bool_decide_eq_true_2 by done.
  rewrite bind_set_framework, bind_get. reflexivity.
Qed.

Lemma load_model_SPACY tc ec s :
  framework (the_model_config s) = SPACY →
  load_model tc ec s = load_spacy_model (model_id (the_model_config s)) s.
Proof.
  intros Hf. unfold load_model.
  rewrite bind_get; cbv beta. rewrite Hf.
  rewrite bool_decide_eq_false_2 by done.
  rewrite bind_ret, bind_get; cbv beta. rewrite Hf. reflexivity.
Qed.

Lemma load_model_OTHER tc ec s value :
  framework (the_model_config s) = OTHER value →
  load_model tc ec s =
  raise (InvalidFramework format_framework (OTHER value)) s.
Proof.
  intros Hf. unfold load_model.
  rewrite bind_get; cbv beta. rewrite Hf.
  rewrite bool_decide_eq_false_2 by done.
  rewrite bind_ret, bind_get; cbv beta. rewrite Hf. reflexivity.
Qed.

(** *** What [load_pytorch_model] does *)

(** A successful run returns the model the hub answered with, under the key
    ["model"]. *)
Lemma load_pytorch_model_returns ff tc ec s d :
  result (load_pytorch_model ff tc ec s) = inr d →
  ∃ m ev,
    d !! "model" = Some (VModel m) ∧
    ev ∈ trace (load_pytorch_model ff tc ec s) ∧
    loaded_model ev = Some m.
Proof.
  unfold load_pytorch_model. run_open. repeat run_step.
  all: intros Hres; try discriminate Hres.
  all: injection Hres as <-.
  all: eexists _, (model_cls_from_pretrained_called _ _ _ _ _ _ _ _).
  all: split; [by rewrite lookup_insert_eq |].
  all: split; [trace_in | reflexivity].
Qed.

(** It talks to the hub only, never to pip or spaCy. *)
Lemma load_pytorch_model_trace ff tc ec s ev :
  ev ∈ trace (load_pytorch_model ff tc ec s) → is_spacy_side ev = false.
Proof.
  unfold load_pytorch_model. run_open. repeat run_step.
  all: intros Hin; trace_cases Hin; reflexivity.
Qed.

(** The only write to the configuration object is the collaborator's. *)
Lemma load_pytorch_model_framework ff tc ec s :
  adjust_keeps_framework →
  framework (the_model_config (final (load_pytorch_model ff tc ec s))) =
  framework (the_model_config s).
Proof.
  intros Hkeep. unfold load_pytorch_model. run_open. repeat run_step.
  all: try reflexivity.
  all: match goal with
       | H : adjust_model_to_task ?m ?mc ?t ?w = _ |- _ =>
           specialize (Hkeep m mc t w); rewrite H in Hkeep; exact Hkeep
       end.
Qed.

(** *** The statements about [load_pytorch_model] *)

(** C4: in [load_pytorch_model], when one of the guarded calls
    (configuration retrieval, supertask check, model-class lookup, model
    instantiation) raises an OSError or a ValueError, nothing more is
    called and the loader raises InvalidEvaluation with the message about
    the model id; the original exception does not reach the caller. *)
Theorem load_pytorch_model_translates_errors ff tc ec s ev e :
  ev ∈ trace (load_pytorch_model ff tc ec s) →
  in_fetch_phase ev = true →
  raised ev = Some e →
  is_OSError e || is_ValueError e = true →
  result (load_pytorch_model ff tc ec s) =
    inl (Exn_InvalidEvaluation
           (unavailable_message (model_id (the_model_config s)))) ∧
  last (trace (load_pytorch_model ff tc ec s)) = Some ev.
Proof.
  unfold load_pytorch_model. run_open. repeat run_step.
  all: intros Hin Hphase Hraised Hcatch.
  all: trace_cases Hin; cbn in Hphase, Hraised; try discriminate.
  all: injection Hraised as ->; try congruence.
  all: split; reflexivity.
Qed.





(** C7: every request [load_pytorch_model] makes for a tokenizer asks for
    a fast one, and asks for a prefix space exactly when "Roberta" occurs
    in the class name of the model that was loaded. *)
Theorem load_pytorch_model_prefix_space
    ff tc ec s m_id rev auth use_fast add_prefix_space answer :
  AutoTokenizer_from_pretrained_called m_id rev auth use_fast
    add_prefix_space answer ∈ trace (load_pytorch_model ff tc ec s) →
  use_fast = true ∧
  ∃ ev model,
    ev ∈ trace (load_pytorch_model ff tc ec s) ∧
    loaded_model ev = Some model ∧
    (add_prefix_space = true ↔
     ∃ pre post, type_name model = pre +:+ "Roberta" +:+ post).
Proof.
  unfold load_pytorch_model. run_open. repeat run_step.
  all: intros Hin; trace_cases Hin.
  all: injection Hin as -> -> -> -> -> ->.
  all: split; [reflexivity |].
  all: eexists (model_cls_from_pretrained_called _ _ _ _ _ _ _ _), _.
  all: split; [trace_in |].
  all: split; [reflexivity | apply contains_iff].
Qed.

(** *** What [load_spacy_model] does *)

Lemma load_spacy_model_returns model_id s d :
  result (load_spacy_model model_id s) = inr d →
  ∃ m ev,
    d !! "model" = Some (VModel m) ∧
    ev ∈ trace (load_spacy_model model_id s) ∧
    loaded_model ev = Some m.
Proof.
  destruct (split_item_last "/" model_id) as (piece & Hlast & _).
  unfold load_spacy_model. rewrite Hlast. run_open. repeat run_step.
  all: intros Hres; try discriminate Hres.
  all: injection Hres as <-.
  all: eexists _, (spacy_load_called _ _).
  all: split; [by rewrite lookup_singleton_eq |].
  all: split; [trace_in | reflexivity].
Qed.

(** It talks to pip and spaCy only, never to the hub client. *)
Lemma load_spacy_model_trace model_id s ev :
  ev ∈ trace (load_spacy_model model_id s) → is_spacy_side ev = true.
Proof.
  destruct (split_item_last "/" model_id) as (piece & Hlast & _).
  unfold load_spacy_model. rewrite Hlast. run_open. repeat run_step.
  all: intros Hin; trace_cases Hin; reflexivity.
Qed.

(** It does not touch the configuration object. *)
Lemma load_spacy_model_config model_id s :
  the_model_config (final (load_spacy_model model_id s)) = the_model_config s.
Proof.
  destruct (split_item_last "/" model_id) as (piece & Hlast & _).
  unfold load_spacy_model. rewrite Hlast. run_open. repeat run_step.
  all: reflexivity.
Qed.

(** C5: in [load_spacy_model], an OSError of [spacy.load] is raised as
    ModelFetchFailed with the full model id and the text of the error.  A
    failed install of the wheel is not raised as ModelFetchFailed with the
    local model id and the output of the process: pip is run through
    [subprocess.run] without [check=True], which does not raise
    CalledProcessError, so a pip run is never answered by the
    [except CalledProcessError] clause.  What the pip run raises reaches the
    caller as it is, and when it comes back the loader goes on to
    [spacy.load] under the local name, so that a failed install surfaces as
    the OSError of [spacy.load], wrapped under the full model id. *)
Theorem load_spacy_model_install_failure model_id s :
  subprocess_run_unchecked →
  (∀ args answer,
     subprocess_run_called args answer ∈ trace (load_spacy_model model_id s) →
     match answer with
     | inl e => result (load_spacy_model model_id s) = inl e
     | inr _ =>
         ∃ local_model_id loaded,
           PyStr.item_last (PyStr.split "/" model_id) = Some local_model_id ∧
           trace (load_spacy_model model_id s) =
             [ is_module_installed_called local_model_id (inr false);
               subprocess_run_called args answer;
               spacy_load_called local_model_id loaded ]
     end) ∧
  (∀ name cls text,
     spacy_load_called name (inl (Exn_OSError cls text))
       ∈ trace (load_spacy_model model_id s) →
     result (load_spacy_model model_id s) =
       inl (Exn_ModelFetchFailed model_id text
              (spacy_failed_message model_id text))).
Proof.
  intros Hunchecked.
  destruct (split_item_last "/" model_id) as (piece & Hlast & _).
  unfold load_spacy_model. rewrite Hlast. run_open. repeat run_step.
  all: try match goal with
           | H : subprocess_run ?a ?w = (_, inl (Exn_CalledProcessError ?o ?t))
             |- _ =>
               exfalso; apply (Hunchecked a w o t); by rewrite H
           end.
  all: split.
  all: first
    [ intros ? ? ? Hin; trace_cases Hin;
      injection Hin as -> <-; first [discriminate | reflexivity]
    | intros ? ? Hin; trace_cases Hin; injection Hin as -> ->;
      first [reflexivity | do 2 eexists; split; reflexivity] ].
Qed.

(** C9: [load_spacy_model] loads the pipeline under the name that follows
    the last ["/"] of the model id, whatever the model id is, and when it
    returns, the dictionary has the single key ["model"], bound to the
    pipeline that was loaded. *)
Theorem load_spacy_model_result model_id s :
  ∃ local_model_id,
    after_last_slash model_id local_model_id ∧
    (∀ name answer,
       spacy_load_called name answer ∈ trace (load_spacy_model model_id s) →
       name = local_model_id) ∧
    (∀ d,
       result (load_spacy_model model_id s) = inr d →
       dom d = {["model"]} ∧
       ∃ m,
         spacy_load_called local_model_id (inr m)
           ∈ trace (load_spacy_model model_id s) ∧
         d = {["model" := VModel m]}).
Proof.
  destruct (split_item_last "/" model_id) as (piece & Hlast & Hfree & Hshape).
  exists piece. split; [by split |]. clear Hfree Hshape.
  unfold load_spacy_model. rewrite Hlast. run_open. repeat run_step.
  all: split.
  all: try (intros ?? Hin; trace_cases Hin; by injection Hin as -> _).
  all: intros d Hres; try discriminate Hres.
  all: injection Hres as <-.
  all: split; [apply dom_singleton_L |].
  all: eexists; split; [trace_in | reflexivity].
Qed.

(** *** The dispatcher *)

(** C1: for a framework that is none of PYTORCH, SPACY and JAX,
    [load_model] calls no collaborator, leaves the store as it is and
    raises InvalidFramework, whose [framework] attribute is that value. *)
Theorem load_model_invalid_framework tc ec s :
  framework (the_model_config s) ≠ PYTORCH →
  framework (the_model_config s) ≠ SPACY →
  framework (the_model_config s) ≠ JAX →
  load_model tc ec s =
  {| final := s; trace := [];
     result :=
       inl (Exn_InvalidFramework (framework (the_model_config s))
              ("The framework "
               +:+ format_framework (framework (the_model_config s))
               +:+ " is not supported.")) |}.
Proof.
  intros Hp Hs Hj.
  destruct (framework (the_model_config s)) as [| | |value] eqn:Hf; try done.
  by rewrite (load_model_OTHER tc ec s value Hf).
Qed.

(** C2: when [load_model] returns, the framework was a supported one and
    the returned dictionary binds ["model"] to the model object that the
    loading call ([from_pretrained] of the model class, or [spacy.load])
    answered with during this run. *)
Theorem load_model_returns_model tc ec s d :
  result (load_model tc ec s) = inr d →
  supported (framework (the_model_config s)) = true ∧
  ∃ m ev,
    d !! "model" = Some (VModel m) ∧
    ev ∈ trace (load_model tc ec s) ∧
    loaded_model ev = Some m.
Proof.
  destruct (framework (the_model_config s)) as [| | |value] eqn:Hf.
  - rewrite (load_model_PYTORCH tc ec s Hf). intros Hres. split; [done|].
    by apply load_pytorch_model_returns.
  - rewrite (load_model_JAX tc ec s Hf). intros Hres. split; [done|].
    by apply load_pytorch_model_returns.
  - rewrite (load_model_SPACY tc ec s Hf). intros Hres. split; [done|].
    by apply load_spacy_model_returns.
  - rewrite (load_model_OTHER tc ec s value Hf). discriminate.
Qed.

(** C3: [load_model] runs exactly one adapter: [load_pytorch_model] with
    [from_flax = False] for PYTORCH, [load_pytorch_model] with
    [from_flax = True] (on the configuration rewritten to PYTORCH) for JAX,
    [load_spacy_model] on the configured model id for SPACY; the calls made
    are then those of that adapter only, and no call is made for another
    framework value. *)
Theorem load_model_dispatch tc ec s :
  let model_config := the_model_config s in
  match framework model_config with
  | PYTORCH =>
      load_model tc ec s = load_pytorch_model false tc ec s ∧
      ∀ ev, ev ∈ trace (load_model tc ec s) → is_spacy_side ev = false
  | JAX =>
      load_model tc ec s =
        load_pytorch_model true tc ec
          {| the_model_config := with_framework PYTORCH model_config;
             world := world s |} ∧
      ∀ ev, ev ∈ trace (load_model tc ec s) → is_spacy_side ev = false
  | SPACY =>
      load_model tc ec s = load_spacy_model (model_id model_config) s ∧
      ∀ ev, ev ∈ trace (load_model tc ec s) → is_spacy_side ev = true
  | OTHER _ => trace (load_model tc ec s) = []
  end.
Proof.
  intros model_config. subst model_config.
  destruct (framework (the_model_config s)) as [| | |value] eqn:Hf.
  - rewrite (load_model_PYTORCH tc ec s Hf). split; [done|].
    apply load_pytorch_model_trace.
  - rewrite (load_model_JAX tc ec s Hf). split; [done|].
    apply load_pytorch_model_trace.
  - rewrite (load_model_SPACY tc ec s Hf). split; [done|].
    apply load_spacy_model_trace.
  - by rewrite (load_model_OTHER tc ec s value Hf).
Qed.

(** C8: [load_model] writes to the caller's configuration object only for
    JAX: the adapter then runs on the object with [framework] overwritten
    to PYTORCH (the other attributes kept), and PYTORCH is what the caller
    reads afterwards; for PYTORCH the adapter runs on the object as the
    caller passed it, and for SPACY and any other value the object is the
    same after the call.  What the caller reads after a run of the PyTorch
    adapter depends on the collaborator that receives the object, which is
    assumed there not to write [framework]. *)
Theorem load_model_config_effect tc ec s :
  let before := the_model_config s in
  let after := the_model_config (final (load_model tc ec s)) in
  match framework before with
  | JAX =>
      load_model tc ec s =
        load_pytorch_model true tc ec
          {| the_model_config := with_framework PYTORCH before;
             world := world s |} ∧
      (adjust_keeps_framework → framework after = PYTORCH)
  | PYTORCH =>
      load_model tc ec s = load_pytorch_model false tc ec s ∧
      (adjust_keeps_framework → framework after = PYTORCH)
  | SPACY | OTHER _ => after = before
  end.
Proof.
  intros before after. subst before after.
  destruct (framework (the_model_config s)) as [| | |value] eqn:Hf.
  - rewrite (load_model_PYTORCH tc ec s Hf). split; [done|].
    intros Hkeep. by rewrite load_pytorch_model_framework.
  - rewrite (load_model_JAX tc ec s Hf). split; [done|].
    intros Hkeep. by rewrite load_pytorch_model_framework.
  - rewrite (load_model_SPACY tc ec s Hf). apply load_spacy_model_config.
  - by rewrite (load_model_OTHER tc ec s value Hf).
Qed.

End LoaderFacts.

(** * The exceptions *)

(** C10: [ModelFetchFailed] stores [model_id] and [error_msg]; its message
    is the argument [message] when that is not empty and the default
    template over [model_id] and [error_msg] when it is; the message is also
    what [str] gives. *)
Theorem ModelFetchFailed_message (model_id error_msg message : string) :
  ModelFetchFailed model_id error_msg message =
    Exn_ModelFetchFailed model_id error_msg
      (if decide (message = "")
       then fetch_failed_template model_id error_msg
       else message) ∧
  str (ModelFetchFailed model_id error_msg message) =
    (if decide (message = "")
     then fetch_failed_template model_id error_msg
     else message).
Proof. by destruct message. Qed.

(** * The loaders on the sample world *)

Module SampleRuns.

Lemma load_model_invalid_framework_witness :
  load_model Sample.task Sample.evaluation
    (Sample.store "acme/net" (OTHER "tensorflow")) =
  {| final := Sample.store "acme/net" (OTHER "tensorflow");
     trace := [];
     result :=
       inl (Exn_InvalidFramework (OTHER "tensorflow")
              "The framework tensorflow is not supported.") |}.
Proof.
  exact (load_model_invalid_framework Sample.task Sample.evaluation
           (Sample.store "acme/net" (OTHER "tensorflow"))
           ltac:(vm_compute; discriminate)
           ltac:(vm_compute; discriminate)
           ltac:(vm_compute; discriminate)).
Defined.

Lemma load_model_returns_model_witness :
  supported JAX = true ∧
  ∃ m ev,
    Sample.roberta_dict !! "model" = Some (VModel m) ∧
    ev ∈ trace (load_model Sample.task Sample.evaluation Sample.roberta_store) ∧
    loaded_model ev = Some m.
Proof.
  apply (load_model_returns_model Sample.task Sample.evaluation
           Sample.roberta_store Sample.roberta_dict).
  vm_compute. reflexivity.
Defined.

Lemma load_pytorch_model_translates_errors_witness :
  result (load_pytorch_model false Sample.task Sample.evaluation Sample.private_store) =
    inl (Exn_InvalidEvaluation (unavailable_message "acme/private")) ∧
  last (trace (load_pytorch_model false Sample.task Sample.evaluation
                 Sample.private_store)) =
    Some (AutoConfig_from_pretrained_called "acme/private" "main"
            (AuthFlag false)
            (inl (Exn_OSError "OSError" "401 Client Error: Unauthorized"))).
Proof.
  apply (load_pytorch_model_translates_errors false Sample.task
           Sample.evaluation Sample.private_store _
           (Exn_OSError "OSError" "401 Client Error: Unauthorized")).
  - vm_compute. apply list_elem_of_here.
  - reflexivity.
  - reflexivity.
  - reflexivity.
Defined.


Lemma load_pytorch_model_prefix_space_witness :
  true = true ∧
  ∃ ev model,
    ev ∈ trace (load_pytorch_model true Sample.task Sample.evaluation
                  Sample.roberta_store) ∧
    loaded_model ev = Some model ∧
    (true = true ↔ ∃ pre post, type_name model = pre +:+ "Roberta" +:+ post).
Proof.
  apply (load_pytorch_model_prefix_space true Sample.task Sample.evaluation
           Sample.roberta_store "acme/roberta-demo" "main" (AuthFlag false) true true
           (inr Sample.roberta_tokenizer)).
  vm_compute. do 5 apply list_elem_of_further. apply list_elem_of_here.
Defined.

Lemma load_spacy_model_install_failure_witness :
  (∃ local_model_id loaded,
     PyStr.item_last (PyStr.split "/" "acme/da_missing") = Some local_model_id ∧
     trace (load_spacy_model "acme/da_missing"
              (Sample.store "acme/da_missing" SPACY)) =
       [ is_module_installed_called local_model_id (inr false);
         subprocess_run_called
           ["pip3"; "install";
            "https://huggingface.co/acme/da_missing/resolve/main/da_missing-any-py3-none-any.whl"]
           (inr tt);
         spacy_load_called local_model_id loaded ]) ∧
  result (load_spacy_model "acme/da_missing"
            (Sample.store "acme/da_missing" SPACY)) =
    inl (Exn_ModelFetchFailed "acme/da_missing" "[E050] Can't find model"
           "Download of acme/da_missing failed, with the following error message: [E050] Can't find model.").
Proof.
  assert (Hpip : subprocess_run_unchecked (W := Sample.World)).
  { intros args w output text. cbn.
    destruct args as [|? [|? [|url [|? ?]]]]; try discriminate.
    destruct (PyStr.contains "missing" url); discriminate. }
  destruct (load_spacy_model_install_failure "acme/da_missing"
              (Sample.store "acme/da_missing" SPACY) Hpip) as [Hrun Hload].
  split.
  - apply (Hrun _ (inr tt)).
    vm_compute. apply list_elem_of_further, list_elem_of_here.
  - apply (Hload "da_missing" "OSError" "[E050] Can't find model").
    vm_compute. do 2 apply list_elem_of_further. apply list_elem_of_here.
Defined.

Lemma load_spacy_model_result_witness :
  ∃ local_model_id,
    after_last_slash "acme/da_core" local_model_id ∧
    ∃ m,
      spacy_load_called local_model_id (inr m)
        ∈ trace (load_spacy_model "acme/da_core"
                   (Sample.store "acme/da_core" SPACY)) ∧
      ({["model" := VModel Sample.danish_pipeline]} : gmap string Value)
        = {["model" := VModel m]}.
Proof.
  destruct (load_spacy_model_result "acme/da_core"
              (Sample.store "acme/da_core" SPACY))
    as (local_model_id & Hlocal & _ & Hret).
  exists local_model_id. split; [exact Hlocal |].
  apply Hret. vm_compute. reflexivity.
Defined.

Lemma load_model_config_effect_witness :
  load_model Sample.task Sample.evaluation Sample.roberta_store =
    load_pytorch_model true Sample.task Sample.evaluation
      (Sample.store "acme/roberta-demo" PYTORCH) ∧
  framework
    (the_model_config
       (final (load_model Sample.task Sample.evaluation Sample.roberta_store))) =
    PYTORCH.
Proof.
  destruct (load_model_config_effect Sample.task Sample.evaluation
              Sample.roberta_store) as [Hrun Hafter].
  split; [exact Hrun |].
  apply Hafter. intros m mc t w. reflexivity.
Defined.

End SampleRuns.

(** * Further behaviour of the loaders *)

Section LoaderBehaviour.
Context {W : Type} `{!Collaborators W}.

(** X1: a run of [load_pytorch_model] that returns has made exactly eight
    calls, in this order and with these arguments: the configuration, the
    supertask check on its architectures, the lookup of the class
    "auto-model-for-<supertask>" in "transformers", the instantiation of
    that class (same model id, revision and token, the configuration just
    retrieved, the cache directory, the [from_flax] flag), the adjustment of
    that model, the fast tokenizer for the model id and revision the
    configuration object then holds, [model.eval()] and then
    [model.to(device)]. *)
Theorem load_pytorch_model_call_sequence ff tc ec s d :
  result (load_pytorch_model ff tc ec s) = inr d →
  ∃ config model_cls model tokenizer,
    let before := the_model_config s in
    let after := the_model_config (final (load_pytorch_model ff tc ec s)) in
    trace (load_pytorch_model ff tc ec s) =
      [ AutoConfig_from_pretrained_called (model_id before) (revision before)
          (use_auth_token ec) (inr config);
        check_supertask_called (architectures config) (supertask tc) (inr tt);
        get_class_by_name_called ("auto-model-for-" +:+ supertask tc)
          "transformers" (inr (Some model_cls));
        model_cls_from_pretrained_called model_cls (model_id before)
          (revision before) (use_auth_token ec) config (cache_dir ec) ff
          (inr model);
        adjust_model_to_task_called model before tc (inr tt);
        AutoTokenizer_from_pretrained_called (model_id after) (revision after)
          (use_auth_token ec) true
          (PyStr.contains "Roberta" (type_name model)) (inr tokenizer);
        model_eval_called model (inr tt);
        model_to_called model (device ec) (inr tt) ].
Proof.
  unfold load_pytorch_model. run_open. repeat run_step.
  all: intros Hres; try discriminate Hres.
  all: do 4 eexists; reflexivity.
Qed.

(** X2: when the class lookup answers with nothing, [load_pytorch_model]
    raises InvalidEvaluation with the message about the supertask; the
    [except] clause of the same [try] block leaves it alone, the lookup is
    the last call made and no model is instantiated. *)
Theorem load_pytorch_model_unknown_supertask ff tc ec s class_name module_name :
  get_class_by_name_called class_name module_name (inr None)
    ∈ trace (load_pytorch_model ff tc ec s) →
  result (load_pytorch_model ff tc ec s) =
    inl (Exn_InvalidEvaluation (unknown_supertask_message (supertask tc))) ∧
  last (trace (load_pytorch_model ff tc ec s)) =
    Some (get_class_by_name_called class_name module_name (inr None)) ∧
  ∀ ev, ev ∈ trace (load_pytorch_model ff tc ec s) → loaded_model ev = None.
Proof.
  unfold load_pytorch_model. run_open. repeat run_step.
  all: intros Hin; trace_cases Hin.
  all: injection Hin as -> ->.
  all: try match goal with
           | H : is_OSError (InvalidEvaluation _) || _ = true |- _ =>
               discriminate H
           end.
  all: split; [reflexivity |]; split; [reflexivity |].
  all: intros ev Hev; trace_cases Hev; reflexivity.
Qed.

(** X3: an exception other than OSError and ValueError raised by one of the
    calls inside the [try] block of [load_pytorch_model] reaches the caller
    as it is, and nothing is called after it. *)
Theorem load_pytorch_model_passes_fetch_errors ff tc ec s ev e :
  ev ∈ trace (load_pytorch_model ff tc ec s) →
  in_fetch_phase ev = true →
  raised ev = Some e →
  is_OSError e || is_ValueError e = false →
  result (load_pytorch_model ff tc ec s) = inl e ∧
  last (trace (load_pytorch_model ff tc ec s)) = Some ev.
Proof.
  unfold load_pytorch_model. run_open. repeat run_step.
  all: intros Hin Hphase Hraised Hcatch.
  all: trace_cases Hin; cbn in Hphase, Hraised; try discriminate.
  all: injection Hraised as ->; try congruence.
  all: split; reflexivity.
Qed.

(** X4: the translation into InvalidEvaluation stops at the end of the [try]
    block: whatever [adjust_model_to_task], [AutoTokenizer.from_pretrained],
    [model.eval] or [model.to] raises, an OSError or ValueError included,
    reaches the caller as it is, and nothing is called after it. *)
Theorem load_pytorch_model_passes_later_errors ff tc ec s ev e :
  ev ∈ trace (load_pytorch_model ff tc ec s) →
  in_fetch_phase ev = false →
  raised ev = Some e →
  result (load_pytorch_model ff tc ec s) = inl e ∧
  last (trace (load_pytorch_model ff tc ec s)) = Some ev.
Proof.
  unfold load_pytorch_model. run_open. repeat run_step.
  all: intros Hin Hphase Hraised.
  all: trace_cases Hin; cbn in Hphase, Hraised; try discriminate.
  all: injection Hraised as ->.
  all: split; reflexivity.
Qed.

(** X5: [load_pytorch_model] raises only when its last call raised, or
    was a class lookup that found nothing, or was the tokenizer load and
    the derivation of the maximal length then compared a [None] (a
    [model_max_length] that is [None], or a [None] among two or more values
    of [max_model_input_sizes]), which is a TypeError.  The [min] itself is
    never taken of an empty list. *)
Theorem load_pytorch_model_raises_only ff tc ec s e :
  result (load_pytorch_model ff tc ec s) = inl e →
  ∃ ev,
    last (trace (load_pytorch_model ff tc ec s)) = Some ev ∧
    (is_Some (raised ev) ∨
     (∃ class_name module_name,
        ev = get_class_by_name_called class_name module_name (inr None)) ∨
     (∃ m_id rev auth use_fast add_prefix_space t op a b,
        ev = AutoTokenizer_from_pretrained_called m_id rev auth use_fast
               add_prefix_space (inr t) ∧
        compares_none t ∧
        e = PyInt.not_supported op a b)).
Proof.
  unfold load_pytorch_model. run_open. repeat run_step.
  all: intros Hres; try discriminate Hres.
  all: injection Hres as <-.
  all: eexists; split; [reflexivity |].
  all: first [ left; eexists; reflexivity
             | right; left; do 2 eexists; reflexivity
             | right; right ].
  all: try match goal with
           | Hlen : (0 <? length ?l)%nat = true, Hmin : PyInt.min ?l = inl _
             |- _ =>
               destruct (min_error _ _ Hlen Hmin) as (Hin & Hlen2 & a & b & ->);
               rewrite length_fmap in Hlen2
           end.
  all: do 9 eexists; split; [reflexivity |]; split; [| reflexivity].
  all: first [ by left | right; eauto ].
Qed.

(** X6: the tokenizer [load_pytorch_model] returns is the loaded one with at
    most its [model_max_length] changed: identity and
    [max_model_input_sizes] are kept, and [model_max_length] is always set
    on it. *)
Theorem load_pytorch_model_tokenizer_kept ff tc ec s d :
  result (load_pytorch_model ff tc ec s) = inr d →
  ∃ m_id rev auth use_fast add_prefix_space t t',
    AutoTokenizer_from_pretrained_called m_id rev auth use_fast
      add_prefix_space (inr t) ∈ trace (load_pytorch_model ff tc ec s) ∧
    d !! "tokenizer" = Some (VTokenizer t') ∧
    tokenizer_id t' = tokenizer_id t ∧
    max_model_input_sizes t' = max_model_input_sizes t ∧
    is_Some (model_max_length t').
Proof.
  unfold load_pytorch_model. run_open. repeat run_step.
  all: intros Hres; try discriminate Hres.
  all: injection Hres as <-.
  all: do 7 eexists.
  all: split; [trace_in |].
  all: split; [by rewrite lookup_insert_ne, lookup_singleton_eq |].
  all: split; [reflexivity |]; split; [reflexivity |].
  all: first [ by eexists | eauto ].
Qed.

(** X7: [adjust_model_to_task], [model.eval] and [model.to] are only ever
    called on the model that was instantiated earlier in the same run. *)
Theorem load_pytorch_model_uses_loaded_model ff tc ec s ev m :
  ev ∈ trace (load_pytorch_model ff tc ec s) →
  model_used ev = Some m →
  ∃ ev', ev' ∈ trace (load_pytorch_model ff tc ec s) ∧
         in_fetch_phase ev' = true ∧ loaded_model ev' = Some m.
Proof.
  unfold load_pytorch_model. run_open. repeat run_step.
  all: intros Hin Hused; trace_cases Hin; cbn in Hused; try discriminate.
  all: injection Hused as <-.
  all: eexists (model_cls_from_pretrained_called _ _ _ _ _ _ _ _).
  all: split; [trace_in | split; reflexivity].
Qed.

(** X8: the model is instantiated from the class the lookup found, with
    the configuration that was retrieved for the same model id, revision
    and token earlier in the same run. *)
Theorem load_pytorch_model_threads_config
    ff tc ec s model_cls m_id rev auth config cache from_flax answer :
  model_cls_from_pretrained_called model_cls m_id rev auth config cache
    from_flax answer ∈ trace (load_pytorch_model ff tc ec s) →
  AutoConfig_from_pretrained_called m_id rev auth (inr config)
    ∈ trace (load_pytorch_model ff tc ec s) ∧
  check_supertask_called (architectures config) (supertask tc) (inr tt)
    ∈ trace (load_pytorch_model ff tc ec s) ∧
  get_class_by_name_called ("auto-model-for-" +:+ supertask tc) "transformers"
    (inr (Some model_cls)) ∈ trace (load_pytorch_model ff tc ec s) ∧
  cache = cache_dir ec ∧ from_flax = ff.
Proof.
  unfold load_pytorch_model. run_open. repeat run_step.
  all: intros Hin; trace_cases Hin.
  all: injection Hin as -> -> -> -> -> -> -> ->.
  all: split_and!; first [reflexivity | trace_in].
Qed.

(** *** [load_spacy_model] *)

(** X9: pip is run only after [is_module_installed] answered that the
    package is missing, and then as [pip3 install] of the wheel
    [https://huggingface.co/<model_id>/resolve/main/<local>-any-py3-none-any.whl]. *)
Theorem load_spacy_model_pip_only_if_missing model_id s args answer :
  subprocess_run_called args answer ∈ trace (load_spacy_model model_id s) →
  ∃ local_model_id,
    PyStr.item_last (PyStr.split "/" model_id) = Some local_model_id ∧
    is_module_installed_called local_model_id (inr false)
      ∈ trace (load_spacy_model model_id s) ∧
    args = ["pip3"; "install"; wheel_url model_id local_model_id].
Proof.
  destruct (split_item_last "/" model_id) as (piece & Hlast & _).
  unfold load_spacy_model. rewrite Hlast. run_open. repeat run_step.
  all: intros Hin; trace_cases Hin.
  all: injection Hin as -> ->.
  all: eexists; split; [reflexivity |]; split; [trace_in | reflexivity].
Qed.

(** X10: when the package is installed, [load_spacy_model] makes exactly two
    calls: the query and [spacy.load] under the same name; pip is not run. *)
Theorem load_spacy_model_installed model_id s name :
  is_module_installed_called name (inr true)
    ∈ trace (load_spacy_model model_id s) →
  ∃ answer,
    trace (load_spacy_model model_id s) =
      [ is_module_installed_called name (inr true);
        spacy_load_called name answer ].
Proof.
  destruct (split_item_last "/" model_id) as (piece & Hlast & _).
  unfold load_spacy_model. rewrite Hlast. run_open. repeat run_step.
  all: intros Hin; trace_cases Hin.
  all: injection Hin as ->.
  all: eexists; reflexivity.
Qed.

(** X11: what pip returns is not looked at: when the pip run comes back
    without raising, [spacy.load] is attempted next, under the local name. *)
Theorem load_spacy_model_pip_result_ignored model_id s args :
  subprocess_run_called args (inr tt) ∈ trace (load_spacy_model model_id s) →
  ∃ local_model_id answer,
    PyStr.item_last (PyStr.split "/" model_id) = Some local_model_id ∧
    trace (load_spacy_model model_id s) =
      [ is_module_installed_called local_model_id (inr false);
        subprocess_run_called args (inr tt);
        spacy_load_called local_model_id answer ].
Proof.
  destruct (split_item_last "/" model_id) as (piece & Hlast & _).
  unfold load_spacy_model. rewrite Hlast. run_open. repeat run_step.
  all: intros Hin; trace_cases Hin.
  all: injection Hin as ->.
  all: do 2 eexists; split; reflexivity.
Qed.

(** X12: an exception the surrounding [except] clause does not name
    (anything but CalledProcessError from the query or the pip run,
    anything but OSError from [spacy.load]) reaches the caller of
    [load_spacy_model] as it is, and nothing is called after it. *)
Theorem load_spacy_model_passes_other_errors model_id s ev e :
  ev ∈ trace (load_spacy_model model_id s) →
  raised ev = Some e →
  caught ev e = false →
  result (load_spacy_model model_id s) = inl e ∧
  last (trace (load_spacy_model model_id s)) = Some ev.
Proof.
  destruct (split_item_last "/" model_id) as (piece & Hlast & _).
  unfold load_spacy_model. rewrite Hlast. run_open. repeat run_step.
  all: intros Hin Hraised Hcaught.
  all: trace_cases Hin; cbn in Hraised, Hcaught; try discriminate.
  all: injection Hraised as <-; try discriminate; try congruence.
  all: split; reflexivity.
Qed.

(** X13: a CalledProcessError raised by [is_module_installed] is wrapped
    like one raised by pip: ModelFetchFailed with the local model id, the
    output and the default message; neither pip nor [spacy.load] is run. *)
Theorem load_spacy_model_wraps_query_failure model_id s name output text :
  is_module_installed_called name (inl (Exn_CalledProcessError output text))
    ∈ trace (load_spacy_model model_id s) →
  result (load_spacy_model model_id s) =
    inl (Exn_ModelFetchFailed name output (fetch_failed_template name output)) ∧
  trace (load_spacy_model model_id s) =
    [ is_module_installed_called name
        (inl (Exn_CalledProcessError output text)) ].
Proof.
  destruct (split_item_last "/" model_id) as (piece & Hlast & _).
  unfold load_spacy_model. rewrite Hlast. run_open. repeat run_step.
  all: intros Hin; trace_cases Hin.
  all: injection Hin as -> -> ->.
  all: split; reflexivity.
Qed.

(** X14: [load_spacy_model] raises only when its last call raised: taking
    the local name never fails, and the exception is either the one that
    call raised or the ModelFetchFailed its [except] clause builds. *)
Theorem load_spacy_model_raises_only model_id s e :
  result (load_spacy_model model_id s) = inl e →
  ∃ ev e',
    last (trace (load_spacy_model model_id s)) = Some ev ∧
    raised ev = Some e' ∧
    if caught ev e'
    then ∃ id error_msg message, e = Exn_ModelFetchFailed id error_msg message
    else e = e'.
Proof.
  destruct (split_item_last "/" model_id) as (piece & Hlast & _).
  unfold load_spacy_model. rewrite Hlast. run_open. repeat run_step.
  all: intros Hres; try discriminate Hres.
  all: injection Hres as <-.
  all: do 2 eexists; split; [reflexivity |]; split; [reflexivity |].
  all: cbn [caught is_CalledProcessError];
    repeat match goal with H : is_OSError _ = _ |- _ => rewrite H end.
  all: first [ reflexivity | do 3 eexists; reflexivity ].
Qed.

(** *** [load_model] *)

Lemma load_pytorch_model_from_flax ff tc ec s ev b :
  ev ∈ trace (load_pytorch_model ff tc ec s) → from_flax_of ev = Some b → b = ff.
Proof.
  unfold load_pytorch_model. run_open. repeat run_step.
  all: intros Hin Hflag; trace_cases Hin; cbn in Hflag; try discriminate.
  all: by injection Hflag as <-.
Qed.

Lemma load_spacy_model_no_instantiation model_id s ev :
  ev ∈ trace (load_spacy_model model_id s) → from_flax_of ev = None.
Proof.
  destruct (split_item_last "/" model_id) as (piece & Hlast & _).
  unfold load_spacy_model. rewrite Hlast. run_open. repeat run_step.
  all: intros Hin; trace_cases Hin; reflexivity.
Qed.

Lemma load_pytorch_model_keys ff tc ec s d :
  result (load_pytorch_model ff tc ec s) = inr d →
  dom d = ({["model"; "tokenizer"]} : gset string).
Proof.
  unfold load_pytorch_model. run_open. repeat run_step.
  all: intros Hres; try discriminate Hres.
  all: injection Hres as <-.
  all: by rewrite dom_insert_L, dom_singleton_L.
Qed.

Lemma load_spacy_model_keys model_id s d :
  result (load_spacy_model model_id s) = inr d →
  dom d = ({["model"]} : gset string).
Proof.
  destruct (split_item_last "/" model_id) as (piece & Hlast & _).
  unfold load_spacy_model. rewrite Hlast. run_open. repeat run_step.
  all: intros Hres; try discriminate Hres.
  all: injection Hres as <-.
  all: apply dom_singleton_L.
Qed.

(** X15: whenever [load_model] instantiates a model, the [from_flax] flag
    it passes to the hub is True exactly when the caller's configuration
    said JAX. *)
Theorem load_model_from_flax tc ec s ev b :
  ev ∈ trace (load_model tc ec s) →
  from_flax_of ev = Some b →
  b = bool_decide (framework (the_model_config s) = JAX).
Proof.
  destruct (framework (the_model_config s)) as [| | |value] eqn:Hf.
  - rewrite (load_model_PYTORCH tc ec s Hf). apply load_pytorch_model_from_flax.
  - rewrite (load_model_JAX tc ec s Hf). apply load_pytorch_model_from_flax.
  - rewrite (load_model_SPACY tc ec s Hf). intros Hin Hflag.
    apply load_spacy_model_no_instantiation in Hin. congruence.
  - rewrite (load_model_OTHER tc ec s value Hf). intros Hin.
    by apply elem_of_nil in Hin.
Qed.

(** X16: because [load_model] overwrites JAX with PYTORCH in the caller's
    configuration object, a second [load_model] on the same object runs the
    PyTorch adapter with [from_flax = False]: the first run instantiates
    with [from_flax = True], the second with [from_flax = False].  The
    collaborator that receives the object is assumed not to write
    [framework]. *)
Theorem load_model_again_after_JAX tc ec tc' ec' s :
  adjust_keeps_framework →
  framework (the_model_config s) = JAX →
  let s' := final (load_model tc ec s) in
  load_model tc' ec' s' = load_pytorch_model false tc' ec' s' ∧
  (∀ ev b,
     ev ∈ trace (load_model tc ec s) → from_flax_of ev = Some b → b = true) ∧
  (∀ ev b,
     ev ∈ trace (load_model tc' ec' s') → from_flax_of ev = Some b → b = false).
Proof.
  intros Hkeep Hf s'.
  assert (Hf' : framework (the_model_config s') = PYTORCH).
  { subst s'. rewrite (load_model_JAX tc ec s Hf).
    by rewrite load_pytorch_model_framework. }
  split_and!.
  - by apply load_model_PYTORCH.
  - rewrite (load_model_JAX tc ec s Hf). apply load_pytorch_model_from_flax.
  - rewrite (load_model_PYTORCH tc' ec' s' Hf').
    apply load_pytorch_model_from_flax.
Qed.

(** X17: the dictionary [load_model] returns has exactly the key ["model"]
    for SPACY and exactly the keys ["model"] and ["tokenizer"] for PYTORCH
    and JAX. *)
Theorem load_model_result_keys tc ec s d :
  result (load_model tc ec s) = inr d →
  dom d =
    if decide (framework (the_model_config s) = SPACY)
    then ({["model"]} : gset string)
    else {["model"; "tokenizer"]}.
Proof.
  destruct (framework (the_model_config s)) as [| | |value] eqn:Hf.
  - rewrite (load_model_PYTORCH tc ec s Hf), decide_False by done.
    apply load_pytorch_model_keys.
  - rewrite (load_model_JAX tc ec s Hf), decide_False by done.
    apply load_pytorch_model_keys.
  - rewrite (load_model_SPACY tc ec s Hf), decide_True by done.
    apply load_spacy_model_keys.
  - rewrite (load_model_OTHER tc ec s value Hf). discriminate.
Qed.

End LoaderBehaviour.

(** *** The local name and the exception messages *)

Lemma split_free_of (sep : ascii) (s : string) :
  PyStr.free_of sep s → PyStr.split sep s = [s].
Proof.
  induction s as [|c s IH]; [done|].
  intros [Hne Hfree]. cbn [PyStr.split].
  destruct (Ascii.eqb_spec c sep) as [->|_]; [done|].
  by rewrite IH.
Qed.

(** X18: the local name of a model id is its own local name: taking
    [split("/")[-1]] of it again gives it back, and it is free of ["/"]. *)
Theorem local_model_id_stable (model_id local_model_id : string) :
  PyStr.item_last (PyStr.split "/" model_id) = Some local_model_id →
  PyStr.item_last (PyStr.split "/" local_model_id) = Some local_model_id ∧
  after_last_slash model_id local_model_id.
Proof.
  intros Hlast.
  destruct (split_item_last "/" model_id) as (piece & Hpiece & Hfree & Hshape).
  rewrite Hlast in Hpiece. injection Hpiece as <-.
  split; [| by split].
  by rewrite (split_free_of _ _ Hfree).
Qed.

(** * The further behaviour on the concrete worlds *)

Module ScenarioRuns.

Lemma load_pytorch_model_call_sequence_witness :
  length (trace (load_pytorch_model true Sample.task Sample.evaluation
                   Sample.roberta_store)) = 8%nat.
Proof.
  destruct (load_pytorch_model_call_sequence true Sample.task
              Sample.evaluation Sample.roberta_store Sample.roberta_dict)
    as (config & model_cls & model & tokenizer & Htrace).
  - vm_compute. reflexivity.
  - cbv zeta in Htrace. rewrite Htrace. reflexivity.
Defined.

Lemma load_pytorch_model_unknown_supertask_witness :
  result (load_pytorch_model false Scenario.other_task Sample.evaluation
            Sample.roberta_store) =
    inl (Exn_InvalidEvaluation (unknown_supertask_message "jokes")).
Proof.
  apply (load_pytorch_model_unknown_supertask false Scenario.other_task
           Sample.evaluation Sample.roberta_store
           "auto-model-for-jokes" "transformers").
  vm_compute. do 2 apply list_elem_of_further. apply list_elem_of_here.
Defined.

Lemma load_pytorch_model_passes_fetch_errors_witness :
  result (load_pytorch_model false Sample.task Sample.evaluation
            (Scenario.store "acme/bert" PYTORCH)) =
    inl (Exn_InvalidEvaluation "architecture and supertask differ").
Proof.
  apply (load_pytorch_model_passes_fetch_errors false Sample.task
           Sample.evaluation (Scenario.store "acme/bert" PYTORCH)
           (check_supertask_called (Some ["BertForTokenClassification"])
              "sequence-classification"
              (inl (Exn_InvalidEvaluation "architecture and supertask differ")))).
  - vm_compute. apply list_elem_of_further, list_elem_of_here.
  - reflexivity.
  - reflexivity.
  - reflexivity.
Defined.

Lemma load_pytorch_model_passes_later_errors_witness :
  result (load_pytorch_model false Scenario.token_task Sample.evaluation
            (Scenario.store "acme/no-tokenizer" PYTORCH)) =
    inl (Exn_OSError "OSError" "no tokenizer files").
Proof.
  apply (load_pytorch_model_passes_later_errors false Scenario.token_task
           Sample.evaluation (Scenario.store "acme/no-tokenizer" PYTORCH)
           (AutoTokenizer_from_pretrained_called "acme/no-tokenizer" "main"
              (AuthFlag false) true false
              (inl (Exn_OSError "OSError" "no tokenizer files")))).
  - vm_compute. do 5 apply list_elem_of_further. apply list_elem_of_here.
  - reflexivity.
  - reflexivity.
Defined.

Lemma load_pytorch_model_raises_only_witness :
  ∃ ev,
    last (trace (load_pytorch_model false Scenario.token_task Sample.evaluation
                   (Scenario.store "acme/transfo-xl" PYTORCH))) = Some ev ∧
    (is_Some (raised ev) ∨
     (∃ class_name module_name,
        ev = get_class_by_name_called class_name module_name (inr None)) ∨
     (∃ m_id rev auth use_fast add_prefix_space t op a b,
        ev = AutoTokenizer_from_pretrained_called m_id rev auth use_fast
               add_prefix_space (inr t) ∧
        compares_none t ∧
        Exn_Other "TypeError"
          "'<' not supported between instances of 'int' and 'NoneType'" =
        PyInt.not_supported op a b)).
Proof.
  apply (load_pytorch_model_raises_only false Scenario.token_task
           Sample.evaluation (Scenario.store "acme/transfo-xl" PYTORCH)).
  vm_compute. reflexivity.
Defined.

Lemma load_pytorch_model_tokenizer_kept_witness :
  ∃ m_id rev auth use_fast add_prefix_space t t',
    AutoTokenizer_from_pretrained_called m_id rev auth use_fast
      add_prefix_space (inr t)
      ∈ trace (load_pytorch_model true Sample.task Sample.evaluation
                 Sample.roberta_store) ∧
    Sample.roberta_dict !! "tokenizer" = Some (VTokenizer t') ∧
    tokenizer_id t' = tokenizer_id t ∧
    max_model_input_sizes t' = max_model_input_sizes t ∧
    is_Some (model_max_length t').
Proof.
  apply (load_pytorch_model_tokenizer_kept true Sample.task Sample.evaluation
           Sample.roberta_store Sample.roberta_dict).
  vm_compute. reflexivity.
Defined.

Lemma load_pytorch_model_uses_loaded_model_witness :
  ∃ ev',
    ev' ∈ trace (load_pytorch_model true Sample.task Sample.evaluation
                   Sample.roberta_store) ∧
    in_fetch_phase ev' = true ∧ loaded_model ev' = Some Sample.roberta.
Proof.
  apply (load_pytorch_model_uses_loaded_model true Sample.task
           Sample.evaluation Sample.roberta_store
           (model_eval_called Sample.roberta (inr tt))).
  - vm_compute. do 6 apply list_elem_of_further. apply list_elem_of_here.
  - reflexivity.
Defined.

Lemma load_pytorch_model_threads_config_witness :
  AutoConfig_from_pretrained_called "acme/roberta-demo" "main" (AuthFlag false)
    (inr {| config_id := 1;
            architectures := Some ["RobertaForSequenceClassification"] |})
    ∈ trace (load_pytorch_model true Sample.task Sample.evaluation
               Sample.roberta_store).
Proof.
  apply (load_pytorch_model_threads_config true Sample.task Sample.evaluation
           Sample.roberta_store {| obj_id := 2; type_name := "type" |}
           "acme/roberta-demo" "main" (AuthFlag false)
           {| config_id := 1;
              architectures := Some ["RobertaForSequenceClassification"] |}
           ".cache" true (inr Sample.roberta)).
  vm_compute. do 3 apply list_elem_of_further. apply list_elem_of_here.
Defined.

Lemma load_spacy_model_pip_only_if_missing_witness :
  ∃ local_model_id,
    PyStr.item_last (PyStr.split "/" "acme/da_core") = Some local_model_id ∧
    is_module_installed_called local_model_id (inr false)
      ∈ trace (load_spacy_model "acme/da_core"
                 (Sample.store "acme/da_core" SPACY)) ∧
    ["pip3"; "install";
     "https://huggingface.co/acme/da_core/resolve/main/da_core-any-py3-none-any.whl"]
      = ["pip3"; "install"; wheel_url "acme/da_core" local_model_id].
Proof.
  apply (load_spacy_model_pip_only_if_missing "acme/da_core"
           (Sample.store "acme/da_core" SPACY) _ (inr tt)).
  vm_compute. apply list_elem_of_further, list_elem_of_here.
Defined.

Lemma load_spacy_model_installed_witness :
  ∃ answer,
    trace (load_spacy_model "acme/en_ready"
             (Scenario.store "acme/en_ready" SPACY)) =
      [ is_module_installed_called "en_ready" (inr true);
        spacy_load_called "en_ready" answer ].
Proof.
  apply (load_spacy_model_installed "acme/en_ready"
           (Scenario.store "acme/en_ready" SPACY) "en_ready").
  vm_compute. apply list_elem_of_here.
Defined.

Lemma load_spacy_model_pip_result_ignored_witness :
  ∃ local_model_id answer,
    PyStr.item_last (PyStr.split "/" "acme/da_missing") = Some local_model_id ∧
    trace (load_spacy_model "acme/da_missing"
             (Sample.store "acme/da_missing" SPACY)) =
      [ is_module_installed_called local_model_id (inr false);
        subprocess_run_called
          ["pip3"; "install"; wheel_url "acme/da_missing" "da_missing"]
          (inr tt);
        spacy_load_called local_model_id answer ].
Proof.
  apply (load_spacy_model_pip_result_ignored "acme/da_missing"
           (Sample.store "acme/da_missing" SPACY)
           ["pip3"; "install"; wheel_url "acme/da_missing" "da_missing"]).
  vm_compute. apply list_elem_of_further, list_elem_of_here.
Defined.

Lemma load_spacy_model_passes_other_errors_witness :
  result (load_spacy_model "acme/en_new" (Scenario.store "acme/en_new" SPACY)) =
    inl (Exn_Other "TimeoutExpired" "timed out after 60 seconds").
Proof.
  apply (load_spacy_model_passes_other_errors "acme/en_new"
           (Scenario.store "acme/en_new" SPACY)
           (subprocess_run_called
              ["pip3"; "install"; wheel_url "acme/en_new" "en_new"]
              (inl (Exn_Other "TimeoutExpired" "timed out after 60 seconds")))).
  - vm_compute. apply list_elem_of_further, list_elem_of_here.
  - reflexivity.
  - reflexivity.
Defined.

Lemma load_spacy_model_wraps_query_failure_witness :
  result (load_spacy_model "acme/en_locked"
            (Scenario.store "acme/en_locked" SPACY)) =
    inl (Exn_ModelFetchFailed "en_locked" "permission denied"
           (fetch_failed_template "en_locked" "permission denied")).
Proof.
  apply (load_spacy_model_wraps_query_failure "acme/en_locked"
           (Scenario.store "acme/en_locked" SPACY) "en_locked"
           "permission denied" "Command returned non-zero exit status 2.").
  vm_compute. apply list_elem_of_here.
Defined.

Lemma load_spacy_model_raises_only_witness :
  ∃ ev e',
    last (trace (load_spacy_model "acme/en_corrupt"
                   (Scenario.store "acme/en_corrupt" SPACY))) = Some ev ∧
    raised ev = Some e' ∧
    if caught ev e'
    then ∃ id error_msg message,
           Exn_ValueError "ValueError" "[E149] Error deserializing model" =
           Exn_ModelFetchFailed id error_msg message
    else Exn_ValueError "ValueError" "[E149] Error deserializing model" = e'.
Proof.
  apply (load_spacy_model_raises_only "acme/en_corrupt"
           (Scenario.store "acme/en_corrupt" SPACY)).
  vm_compute. reflexivity.
Defined.

Lemma load_model_from_flax_witness :
  true = bool_decide (framework (the_model_config Sample.roberta_store) = JAX).
Proof.
  apply (load_model_from_flax Sample.task Sample.evaluation
           Sample.roberta_store
           (model_cls_from_pretrained_called
              {| obj_id := 2; type_name := "type" |} "acme/roberta-demo" "main"
              (AuthFlag false)
              {| config_id := 1;
                 architectures := Some ["RobertaForSequenceClassification"] |}
              ".cache" true (inr Sample.roberta))).
  - vm_compute. do 3 apply list_elem_of_further. apply list_elem_of_here.
  - reflexivity.
Defined.

Lemma load_model_again_after_JAX_witness :
  load_model Sample.task Sample.evaluation
    (final (load_model Sample.task Sample.evaluation Sample.roberta_store)) =
  load_pytorch_model false Sample.task Sample.evaluation
    (final (load_model Sample.task Sample.evaluation Sample.roberta_store)).
Proof.
  apply (load_model_again_after_JAX Sample.task Sample.evaluation Sample.task
           Sample.evaluation Sample.roberta_store).
  - intros m mc t w. reflexivity.
  - reflexivity.
Defined.

Lemma load_model_result_keys_witness :
  dom Sample.roberta_dict = ({["model"; "tokenizer"]} : gset string).
Proof.
  apply (load_model_result_keys Sample.task Sample.evaluation
           Sample.roberta_store Sample.roberta_dict).
  vm_compute. reflexivity.
Defined.

Lemma local_model_id_stable_witness :
  PyStr.item_last (PyStr.split "/" "acme/models/da_core") = Some "da_core" ∧
  PyStr.item_last (PyStr.split "/" "da_core") = Some "da_core" ∧
  after_last_slash "acme/models/da_core" "da_core".
Proof.
  split; [reflexivity |].
  apply (local_model_id_stable "acme/models/da_core" "da_core"). reflexivity.
Defined.

End ScenarioRuns.
